(** * JSON-LD document loader (aries_cloudagent/vc/ld_proofs/document_loader.py)

    A shallow embedding of [DocumentLoader] and of the properties its
    specification states about it.

    The loader talks to three collaborators: the DID resolver, the
    [requests] document loader of PyLD and an optional cache.  They are
    opaque to the loader, so they are modelled as transition functions over
    an abstract world [W]; every call made to one of them is appended to a
    chronological trace, which is what the statements about "is invoked
    with" and "is never invoked" are about.  Python exceptions are an
    explicit [Raise] outcome. *)

From Stdlib Require Import String Ascii ZArith List Bool Lia.
From stdpp Require Import base gmap strings.
Import ListNotations.

Local Open Scope string_scope.
Local Open Scope Z_scope.

(** ** Python values *)

(** The JSON-like fragment of Python values that documents, options and
    exception arguments are made of.  Dictionaries keep insertion order. *)
#[warnings="-register-all"]
Inductive pyval : Type :=
| PyNone
| PyBool (b : bool)
| PyInt (n : Z)
| PyStr (s : string)
| PyList (items : list pyval)
| PyDict (entries : list (string * pyval)).

(** Python's truth value testing, as used by [if document:]. *)
Definition truthy (v : pyval) : bool :=
  match v with
  | PyNone => false
  | PyBool b => b
  | PyInt n => negb (n =? 0)
  | PyStr s => negb (String.length s =? 0)%nat
  | PyList items => negb (length items =? 0)%nat
  | PyDict entries => negb (length entries =? 0)%nat
  end.

(** [needle in hay] for strings. *)
Fixpoint str_contains (needle hay : string) : bool :=
  String.prefix needle hay ||
  match hay with
  | EmptyString => false
  | String _ rest => str_contains needle rest
  end.

(** ** Exceptions *)

(** A raised exception: its class and the arguments it was built with. *)
Record exn : Type := mk_exn { exn_class : string; exn_args : list pyval }.

Definition LinkedDataProofException (msg : string) : exn :=
  mk_exn "LinkedDataProofException" [PyStr msg].

(** The message of the exception raised at lines 76-79: two adjacent string
    literals, concatenated by the Python parser. *)
Definition unrecognized_url_message : string :=
  "Unrecognized url format. Must start with " ++
  "'did:', 'http://' or 'https://'".

(** Whether text [s] occurs in one of the string arguments of [e]. *)
Definition exn_mentions (e : exn) (s : string) : bool :=
  existsb (fun a => match a with PyStr m => str_contains s m | _ => false end)
          (exn_args e).

Inductive result (A : Type) : Type :=
| Return (a : A)
| Raise (e : exn).
Arguments Return {A} a.
Arguments Raise {A} e.

(** ** Calls to collaborators *)

Inductive event : Type :=
| EvCacheGet (key : string)
| EvCacheSet (key : string) (value : pyval) (ttl : Z)
| EvResolve (did : string)
| EvFetch (url : string) (options : pyval).

Definition is_cache_event (e : event) : bool :=
  match e with EvCacheGet _ | EvCacheSet _ _ _ => true | _ => false end.

Definition is_cache_set (e : event) : bool :=
  match e with EvCacheSet _ _ _ => true | _ => false end.

(** The two resolver collaborators: Identifier Resolver and Network Fetcher. *)
Definition is_resolver_event (e : event) : bool :=
  match e with EvResolve _ | EvFetch _ _ => true | _ => false end.

Definition resolver_calls (tr : list event) : nat :=
  length (List.filter is_resolver_event tr).

(** The key a call to the cache was made with. *)
Definition event_key (e : event) : option string :=
  match e with
  | EvCacheGet key | EvCacheSet key _ _ => Some key
  | _ => None
  end.

Definition cache_keys (tr : list event) : list string :=
  flat_map (fun e => match event_key e with Some k => [k] | None => [] end) tr.

(** ** The loader *)

Section Loader.

(** The state of everything outside the loader (cache contents, network,
    ledger, clock). *)
Variable W : Type.

(** [Profile] is passed to the resolver and never inspected. *)
Variable Profile : Type.

(** pydid's [DIDUrl]: an external library.  [DIDUrl.parse] returns an
    object, or raises; the loader reads its [did] attribute only, and
    [did_url_rest] stands for the path, query and fragment. *)
Record DIDUrl : Type := mk_DIDUrl { did : string; did_url_rest : string }.
Variable DIDUrl_is_valid : string -> bool.
Variable DIDUrl_parse : string -> result DIDUrl.

(** [BaseCache]: [get(key)] and [set(key, value, ttl)]. *)
Record BaseCache : Type := mk_BaseCache {
  get : string -> W -> result pyval * W;
  set : string -> pyval -> Z -> W -> result pyval * W
}.

(** [DIDResolver]: [resolve(profile, did)]. *)
Record DIDResolver : Type := mk_DIDResolver {
  resolve : Profile -> string -> W -> result pyval * W
}.

(** The attributes [__init__] sets.  [profile.inject(BaseCache,
    required=False)] gives [None] when no cache is bound.  The executor
    ([ThreadPoolExecutor(max_workers=1)]) has no counterpart here: calls
    are run to completion one after the other. *)
Record DocumentLoader : Type := mk_DocumentLoader {
  profile : Profile;
  resolver : DIDResolver;
  cache : option BaseCache;
  requests_loader : string -> pyval -> W -> result pyval * W;
  cache_ttl : Z
}.

(** Computations: the world and the trace of collaborator calls are
    threaded through, and an exception stops the rest. *)
Definition state : Type := W * list event.
Definition M (A : Type) : Type := state -> result A * state.

Definition ret {A} (a : A) : M A := fun st => (Return a, st).
Definition raise {A} (e : exn) : M A := fun st => (Raise e, st).
Definition bind {A B} (c : M A) (k : A -> M B) : M B :=
  fun st =>
    match c st with
    | (Return a, st') => k a st'
    | (Raise e, st') => (Raise e, st')
    end.
(** A pure computation that may raise. *)
Definition lift {A} (r : result A) : M A := fun st => (r, st).
(** A collaborator call: log it, then let the collaborator act. *)
Definition call {A} (ev : event) (f : W -> result A * W) : M A :=
  fun st =>
    let (r, w') := f (fst st) in (r, (w', (snd st ++ [ev])%list)).

Notation "x <- c ;; k" := (bind c (fun x => k))
  (at level 100, c at next level, right associativity).

(** Line 40, [DIDUrl.parse(did).did if DIDUrl.is_valid(did) else did]:
    the identifier handed to the resolver, unless [DIDUrl.parse] raises. *)
Definition plain_did (did0 : string) : result string :=
  if DIDUrl_is_valid did0
  then match DIDUrl_parse did0 with
       | Return u => Return (did u)
       | Raise e => Raise e
       end
  else Return did0.

(** Lines 36-51. *)
Definition _load_did_document (self : DocumentLoader)
    (did0 : string) (options : pyval) : M pyval :=
  did1 <- lift (plain_did did0) ;;
  did_document <- call (EvResolve did1)
                    (resolve (resolver self) (profile self) did1) ;;
  let document := PyDict [
    ("contentType", PyStr "application/ld+json");
    ("contextUrl", PyNone);
    ("documentUrl", PyStr did1);
    ("document", did_document) ] in
  ret document.

(** Lines 53-56. *)
Definition _load_http_document (self : DocumentLoader)
    (url : string) (options : pyval) : M pyval :=
  document <- call (EvFetch url options)
                (requests_loader self url options) ;;
  ret document.

(** Line 62, the f-string [f"json_ld_document_resolver::{url}"]. *)
Definition cache_key_of (url : string) : string :=
  "json_ld_document_resolver::" ++ url.

(** Lines 64-68: [Some document] is the early [return document]. *)
Definition try_cache (self : DocumentLoader) (cache_key : string)
    : M (option pyval) :=
  match cache self with
  | Some c =>
      document <- call (EvCacheGet cache_key) (get c cache_key) ;;
      if truthy document then ret (Some document) else ret None
  | None => ret None
  end.

(** Lines 70-79. *)
Definition dispatch (self : DocumentLoader)
    (url : string) (options : pyval) : M pyval :=
  if String.prefix "did:" url then
    _load_did_document self url options
  else if String.prefix "http://" url || String.prefix "https://" url then
    _load_http_document self url options
  else
    raise (LinkedDataProofException unrecognized_url_message).

(** Lines 81-83. *)
Definition fill_cache (self : DocumentLoader) (cache_key : string)
    (document : pyval) : M unit :=
  match cache self with
  | Some c =>
      _ <- call (EvCacheSet cache_key document (cache_ttl self))
             (set c cache_key document (cache_ttl self)) ;;
      ret tt
  | None => ret tt
  end.

(** Lines 70-85: what runs when the lookup did not return. *)
Definition resolve_and_store (self : DocumentLoader) (cache_key : string)
    (url : string) (options : pyval) : M pyval :=
  document <- dispatch self url options ;;
  _ <- fill_cache self cache_key document ;;
  ret document.

(** Lines 59-85. *)
Definition _load_async (self : DocumentLoader)
    (url : string) (options : pyval) : M pyval :=
  let cache_key := cache_key_of url in
  cached <- try_cache self cache_key ;;
  match cached with
  | Some document => ret document
  | None => resolve_and_store self cache_key url options
  end.

(** Lines 87-94: a fresh event loop runs the coroutine to completion. *)
Definition _load_sync (self : DocumentLoader)
    (url : string) (options : pyval) : M pyval :=
  _load_async self url options.

(** Lines 96-105: the call is handed to the single worker and the caller
    waits for its result, or for its exception, which is raised again. *)
Definition load_document (self : DocumentLoader)
    (url : string) (options : pyval) : M pyval :=
  _load_sync self url options.

(** Lines 107-110, [__call__]. *)
Definition load (self : DocumentLoader)
    (url : string) (options : pyval) : M pyval :=
  load_document self url options.

(** A call that is neither a cache call nor a resolver call: it acts on
    the world and may raise, and the trace is left alone. *)
Definition unlogged {A} (f : W -> result A * W) : M A :=
  fun st => let (r, w') := f (fst st) in (r, (w', snd st)).

(** Lines 21-34, [__init__].  The four calls it makes are calls into code
    that is not the loader's, made in this order and none of them guarded:
    [profile.inject(DIDResolver)], [profile.inject(BaseCache,
    required=False)], which gives [None] when no cache is bound,
    [requests.requests_document_loader()] and
    [ThreadPoolExecutor(max_workers=1)].  [cache_ttl0] is [None] when the
    caller leaves the argument out.  The executor has no field in
    [DocumentLoader]. *)
Definition DocumentLoader_init
    (inject_resolver : Profile -> W -> result DIDResolver * W)
    (inject_cache : Profile -> W -> result (option BaseCache) * W)
    (requests_document_loader :
       W -> result (string -> pyval -> W -> result pyval * W) * W)
    (ThreadPoolExecutor : Z -> W -> result unit * W)
    (profile0 : Profile) (cache_ttl0 : option Z) : M DocumentLoader :=
  resolver0 <- unlogged (inject_resolver profile0) ;;
  cache0 <- unlogged (inject_cache profile0) ;;
  requests_loader0 <- unlogged requests_document_loader ;;
  executor0 <- unlogged (ThreadPoolExecutor 1) ;;
  ret (mk_DocumentLoader profile0 resolver0 cache0 requests_loader0
         (match cache_ttl0 with Some ttl => ttl | None => 300 end)).

End Loader.

Arguments mk_BaseCache {W} get set.
Arguments get {W} b key w.
Arguments set {W} b key value ttl w.
Arguments mk_DIDResolver {W Profile} resolve.
Arguments resolve {W Profile} d p did w.
Arguments mk_DocumentLoader {W Profile} profile resolver cache requests_loader cache_ttl.
Arguments profile {W Profile} d.
Arguments resolver {W Profile} d.
Arguments cache {W Profile} d.
Arguments requests_loader {W Profile} d url options w.
Arguments cache_ttl {W Profile} d.
Arguments ret {W A} a st.
Arguments raise {W A} e st.
Arguments bind {W A B} c k st.
Arguments lift {W A} r st.
Arguments call {W A} ev f st.
Arguments _load_did_document {W Profile} DIDUrl_is_valid DIDUrl_parse self did0 options st.
Arguments _load_http_document {W Profile} self url options st.
Arguments try_cache {W Profile} self cache_key st.
Arguments dispatch {W Profile} DIDUrl_is_valid DIDUrl_parse self url options st.
Arguments fill_cache {W Profile} self cache_key document st.
Arguments resolve_and_store {W Profile} DIDUrl_is_valid DIDUrl_parse self cache_key url options st.
Arguments _load_async {W Profile} DIDUrl_is_valid DIDUrl_parse self url options st.
Arguments _load_sync {W Profile} DIDUrl_is_valid DIDUrl_parse self url options st.
Arguments load_document {W Profile} DIDUrl_is_valid DIDUrl_parse self url options st.
Arguments load {W Profile} DIDUrl_is_valid DIDUrl_parse self url options st.
Arguments unlogged {W A} f st.
Arguments DocumentLoader_init {W Profile} inject_resolver inject_cache
  requests_document_loader ThreadPoolExecutor profile0 cache_ttl0 st.

(** ** Collaborators to run the loader with *)

(** A stand-in for pydid's [DIDUrl]: the DID is what precedes the first
    ['/'], ['?'] or ['#'], and a reference without such a component is
    refused, as the comment at lines 37-39 says of [DIDUrl]. *)
Module SimpleDIDUrl.

Definition is_delimiter (c : ascii) : bool :=
  (c =? "/")%char || (c =? "?")%char || (c =? "#")%char.

Fixpoint split (s : string) : string * string :=
  match s with
  | EmptyString => (EmptyString, EmptyString)
  | String c rest =>
      if is_delimiter c then (EmptyString, s)
      else let (d, r) := split rest in (String c d, r)
  end.

Definition is_valid (url : string) : bool :=
  String.prefix "did:" url && negb (String.length (snd (split url)) =? 0)%nat.

Definition parse (url : string) : result DIDUrl :=
  if is_valid url
  then Return (mk_DIDUrl (fst (split url)) (snd (split url)))
  else Raise (mk_exn "InvalidDIDUrlError" [PyStr url]).

End SimpleDIDUrl.

(** Modelled from the spec: the Cache-Aside Store, "a key-value store with
    TTL-based expiry": [get(key)] gives the value or [None], [set(key,
    value, ttl)] keeps the value for [ttl] seconds.  The implementations of
    [BaseCache] are not part of the loader's file. *)
Module InMemoryCache.

Record world : Type := mk_world {
  store : gmap string (pyval * Z);
  clock : Z
}.

Definition empty_world : world := mk_world ∅ 0.

(** The world [seconds] later. *)
Definition elapse (seconds : Z) (w : world) : world :=
  mk_world (store w) (clock w + seconds).

Definition cache_get (key : string) (w : world) : result pyval * world :=
  match store w !! key with
  | Some (value, expires) =>
      if clock w <? expires then (Return value, w) else (Return PyNone, w)
  | None => (Return PyNone, w)
  end.

Definition cache_set (key : string) (value : pyval) (ttl : Z) (w : world)
    : result pyval * world :=
  (Return PyNone,
   mk_world (<[key := (value, clock w + ttl)]> (store w)) (clock w)).

Definition in_memory_cache : BaseCache world :=
  mk_BaseCache cache_get cache_set.

End InMemoryCache.

Module Demo.
Import InMemoryCache.

Definition did_resolver : DIDResolver world unit :=
  mk_DIDResolver (fun _ did w => (Return (PyDict [("id", PyStr did)]), w)).

(** A resolver that finds nothing. *)
Definition failing_resolver : DIDResolver world unit :=
  mk_DIDResolver (fun _ did w => (Raise (mk_exn "DIDNotFound" [PyStr did]), w)).

Definition fetcher (url : string) (options : pyval) (w : world)
    : result pyval * world :=
  (Return (PyDict [("contentType", PyStr "application/ld+json");
                   ("contextUrl", PyNone);
                   ("documentUrl", PyStr url);
                   ("document", PyDict [("@context", options)])]), w).

(** A fetcher whose answer is an empty record. *)
Definition empty_fetcher (url : string) (options : pyval) (w : world)
    : result pyval * world :=
  (Return (PyDict []), w).

Definition uncached_loader : DocumentLoader world unit :=
  mk_DocumentLoader tt did_resolver None fetcher 300.

Definition cached_loader : DocumentLoader world unit :=
  mk_DocumentLoader tt did_resolver (Some in_memory_cache) fetcher 300.

Definition cached_failing_loader : DocumentLoader world unit :=
  mk_DocumentLoader tt failing_resolver (Some in_memory_cache) fetcher 300.

Definition cached_empty_loader : DocumentLoader world unit :=
  mk_DocumentLoader tt did_resolver (Some in_memory_cache) empty_fetcher 300.

(** A record as the fetcher gives it, and a world whose cache holds it. *)
Definition cached_document : pyval :=
  PyDict [("contentType", PyStr "application/ld+json");
          ("contextUrl", PyNone);
          ("documentUrl", PyStr "https://example.com/ctx.jsonld");
          ("document", PyDict [("@context", PyDict [])])].

Definition primed_world : world :=
  snd (cache_set "json_ld_document_resolver::https://example.com/ctx.jsonld"
         cached_document 300 empty_world).

(** A world whose cache holds an empty record under that key. *)
Definition falsy_world : world :=
  snd (cache_set "json_ld_document_resolver::https://example.com/ctx.jsonld"
         (PyDict []) 300 empty_world).

Definition run (self : DocumentLoader world unit) (url : string)
    (options : pyval) (st : world * list event) :=
  load SimpleDIDUrl.is_valid SimpleDIDUrl.parse self url options st.

End Demo.

(** Profiles to build loaders from: what [inject] finds in them. *)
Module DemoProfile.
Import InMemoryCache.

Definition inject_resolver (p : unit) (w : world)
    : result (DIDResolver world unit) * world :=
  (Return Demo.did_resolver, w).

(** A profile with no resolver bound. *)
Definition inject_no_resolver (p : unit) (w : world)
    : result (DIDResolver world unit) * world :=
  (Raise (mk_exn "InjectionError" [PyStr "DIDResolver"]), w).

Definition inject_cache (p : unit) (w : world)
    : result (option (BaseCache world)) * world :=
  (Return (Some in_memory_cache), w).

Definition inject_no_cache (p : unit) (w : world)
    : result (option (BaseCache world)) * world :=
  (Return None, w).

Definition requests_document_loader (w : world)
    : result (string -> pyval -> world -> result pyval * world) * world :=
  (Return Demo.fetcher, w).

Definition executor (max_workers : Z) (w : world) : result unit * world :=
  (Return tt, w).

(** A cache that is down: its [get] raises. *)
Definition broken_cache : BaseCache world :=
  mk_BaseCache (fun key w => (Raise (mk_exn "CacheError" [PyStr key]), w))
               cache_set.

Definition outage_loader : DocumentLoader world unit :=
  mk_DocumentLoader tt Demo.did_resolver (Some broken_cache) Demo.fetcher 300.

End DemoProfile.

(** ** How a call of the loader unfolds *)

Local Open Scope list_scope.

Lemma prefix_cons (a b : ascii) (s1 s2 : string) :
  String.prefix (String a s1) (String b s2) =
    if ascii_dec a b then String.prefix s1 s2 else false.
Proof. reflexivity. Qed.

Lemma prefix_http_not_did (url : string) :
  String.prefix "http://" url || String.prefix "https://" url = true ->
  String.prefix "did:" url = false.
Proof.
  destruct url as [|b rest]; [reflexivity|].
  rewrite !prefix_cons.
  destruct (ascii_dec "d" b) as [Hd|Hd]; [|reflexivity].
  destruct (ascii_dec "h" b) as [Hh|Hh]; [|discriminate].
  congruence.
Qed.

Lemma resolver_calls_app (tr1 tr2 : list event) :
  resolver_calls (tr1 ++ tr2) = (resolver_calls tr1 + resolver_calls tr2)%nat.
Proof. unfold resolver_calls. rewrite List.filter_app. apply length_app. Qed.

Lemma resolver_calls_le_length (tr : list event) :
  (resolver_calls tr <= length tr)%nat.
Proof. apply List.filter_length_le. Qed.

Lemma cache_keys_app (tr1 tr2 : list event) :
  cache_keys (tr1 ++ tr2) = cache_keys tr1 ++ cache_keys tr2.
Proof. apply flat_map_app. Qed.

Lemma resolver_events_no_cache_keys (evs : list event) :
  forallb is_resolver_event evs = true -> cache_keys evs = [].
Proof.
  induction evs as [|ev evs IH]; [reflexivity|].
  simpl. intros Hres. apply andb_prop in Hres as [Hev Hevs].
  destruct ev; simpl in *; try discriminate; auto.
Qed.

Lemma resolver_events_no_cache_set (evs : list event) :
  forallb is_resolver_event evs = true -> List.filter is_cache_set evs = [].
Proof.
  induction evs as [|ev evs IH]; [reflexivity|].
  simpl. intros Hres. apply andb_prop in Hres as [Hev Hevs].
  destruct ev; simpl in *; try discriminate; auto.
Qed.

Section LoaderFacts.

Context {W Profile : Type}.
(** [DIDUrl.is_valid] and [DIDUrl.parse], whatever pydid makes of them. *)
Variable is_valid : string -> bool.
Variable parse : string -> result DIDUrl.


Implicit Types (self : DocumentLoader W Profile) (c : BaseCache W).
Implicit Types (url key : string) (options d doc : pyval).
Implicit Types (w : W) (tr : list event).

Lemma call_eq {A} (ev : event) (f : W -> result A * W) w tr :
  call ev f (w, tr) = (fst (f w), (snd (f w), tr ++ [ev])).
Proof. unfold call; simpl. destruct (f w); reflexivity. Qed.

Lemma fill_cache_none self key doc (st : W * list event) :
  cache self = None -> fill_cache self key doc st = (Return tt, st).
Proof. intros H. unfold fill_cache. rewrite H. reflexivity. Qed.

Lemma fill_cache_some self c key doc w tr :
  cache self = Some c ->
  fill_cache self key doc (w, tr) =
    (match fst (set c key doc (cache_ttl self) w) with
     | Return _ => Return tt
     | Raise e => Raise e
     end,
     (snd (set c key doc (cache_ttl self) w),
      tr ++ [EvCacheSet key doc (cache_ttl self)])).
Proof.
  intros H. unfold fill_cache. rewrite H. unfold bind. rewrite call_eq.
  destruct (set c key doc (cache_ttl self) w) as [[x|e] w']; reflexivity.
Qed.

(** With no cache the pipeline is the dispatch alone. *)
Lemma load_no_cache self url options (st : W * list event) :
  cache self = None ->
  load is_valid parse self url options st =
    dispatch is_valid parse self url options st.
Proof.
  intros H.
  unfold load, load_document, _load_sync, _load_async, try_cache.
  rewrite H. unfold bind at 1. unfold ret at 1.
  unfold resolve_and_store, bind.
  destruct (dispatch is_valid parse self url options st) as [[doc|e] st'];
    [|reflexivity].
  rewrite fill_cache_none by assumption. reflexivity.
Qed.

(** With a cache the lookup comes first, whatever the reference is. *)
Lemma load_cached self c url options w tr :
  cache self = Some c ->
  load is_valid parse self url options (w, tr) =
    match get c (cache_key_of url) w with
    | (Return d, w1) =>
        if truthy d
        then (Return d, (w1, tr ++ [EvCacheGet (cache_key_of url)]))
        else resolve_and_store is_valid parse self (cache_key_of url) url options
               (w1, tr ++ [EvCacheGet (cache_key_of url)])
    | (Raise e, w1) => (Raise e, (w1, tr ++ [EvCacheGet (cache_key_of url)]))
    end.
Proof.
  intros H.
  unfold load, load_document, _load_sync, _load_async, try_cache.
  rewrite H. unfold bind at 1. unfold bind at 1. rewrite call_eq.
  destruct (get c (cache_key_of url) w) as [[d|e] w1]; simpl; [|reflexivity].
  destruct (truthy d); reflexivity.
Qed.

Lemma resolve_and_store_cached self c key url options (st : W * list event) :
  cache self = Some c ->
  resolve_and_store is_valid parse self key url options st =
    match dispatch is_valid parse self url options st with
    | (Return doc, (w2, tr2)) =>
        (match fst (set c key doc (cache_ttl self) w2) with
         | Return _ => Return doc
         | Raise e => Raise e
         end,
         (snd (set c key doc (cache_ttl self) w2),
          tr2 ++ [EvCacheSet key doc (cache_ttl self)]))
    | (Raise e, st2) => (Raise e, st2)
    end.
Proof.
  intros H. unfold resolve_and_store. unfold bind at 1.
  destruct (dispatch is_valid parse self url options st)
    as [[doc|e] [w2 tr2]]; [|reflexivity].
  unfold bind. rewrite (fill_cache_some _ _ _ _ _ _ H).
  destruct (fst (set c key doc (cache_ttl self) w2)); reflexivity.
Qed.

Lemma dispatch_did self url options (st : W * list event) :
  String.prefix "did:" url = true ->
  dispatch is_valid parse self url options st =
    _load_did_document is_valid parse self url options st.
Proof. intros H. unfold dispatch. rewrite H. reflexivity. Qed.

Lemma dispatch_http self url options (st : W * list event) :
  String.prefix "http://" url || String.prefix "https://" url = true ->
  dispatch is_valid parse self url options st =
    _load_http_document self url options st.
Proof.
  intros H. unfold dispatch.
  rewrite (prefix_http_not_did _ H), H. reflexivity.
Qed.

Lemma dispatch_unrecognized self url options (st : W * list event) :
  String.prefix "did:" url = false ->
  String.prefix "http://" url = false ->
  String.prefix "https://" url = false ->
  dispatch is_valid parse self url options st =
    (Raise (LinkedDataProofException unrecognized_url_message), st).
Proof. intros H1 H2 H3. unfold dispatch. rewrite H1, H2, H3. reflexivity. Qed.

Lemma load_http_document_eq self url options w tr :
  _load_http_document self url options (w, tr) =
    (fst (requests_loader self url options w),
     (snd (requests_loader self url options w), tr ++ [EvFetch url options])).
Proof.
  unfold _load_http_document, bind. rewrite call_eq.
  destruct (requests_loader self url options w) as [[doc|e] w']; reflexivity.
Qed.

Lemma load_did_document_eq self url options w tr :
  _load_did_document is_valid parse self url options (w, tr) =
    match plain_did is_valid parse url with
    | Return did1 =>
        (match fst (resolve (resolver self) (profile self) did1 w) with
         | Return did_document =>
             Return (PyDict [("contentType", PyStr "application/ld+json");
                             ("contextUrl", PyNone);
                             ("documentUrl", PyStr did1);
                             ("document", did_document)])
         | Raise e => Raise e
         end,
         (snd (resolve (resolver self) (profile self) did1 w),
          tr ++ [EvResolve did1]))
    | Raise e => (Raise e, (w, tr))
    end.
Proof.
  unfold _load_did_document, bind at 1. unfold lift.
  destruct (plain_did is_valid parse url) as [did1|e]; [|reflexivity].
  unfold bind. rewrite call_eq.
  destruct (resolve (resolver self) (profile self) did1 w) as [[x|e] w'];
    reflexivity.
Qed.

(** Dispatch calls at most one collaborator, and only a resolver. *)
Lemma dispatch_trace self url options w tr r w' tr' :
  dispatch is_valid parse self url options (w, tr) = (r, (w', tr')) ->
  exists evs, tr' = tr ++ evs /\ forallb is_resolver_event evs = true /\
              (length evs <= 1)%nat.
Proof.
  unfold dispatch.
  destruct (String.prefix "did:" url).
  - rewrite load_did_document_eq.
    destruct (plain_did is_valid parse url) as [d1|e].
    + intros [= _ _ <-]. exists [EvResolve d1]. simpl. auto.
    + intros [= _ _ <-]. exists []. rewrite app_nil_r. simpl. auto.
  - destruct (String.prefix "http://" url || String.prefix "https://" url).
    + rewrite load_http_document_eq.
      intros [= _ _ <-]. exists [EvFetch url options]. simpl. auto.
    + unfold raise. intros [= _ _ <-]. exists [].
      rewrite app_nil_r. simpl. auto.
Qed.

Lemma resolve_and_store_raise self key url options (st st' : W * list event) e :
  dispatch is_valid parse self url options st = (Raise e, st') ->
  resolve_and_store is_valid parse self key url options st = (Raise e, st').
Proof. intros H. unfold resolve_and_store, bind. rewrite H. reflexivity. Qed.

(** The pipeline in terms of the outcome of the lookup. *)
Lemma load_after_lookup self url options (st : W * list event) :
  load is_valid parse self url options st =
    match try_cache self (cache_key_of url) st with
    | (Return (Some document), st1) => (Return document, st1)
    | (Return None, st1) =>
        resolve_and_store is_valid parse self (cache_key_of url) url options st1
    | (Raise e, st1) => (Raise e, st1)
    end.
Proof.
  unfold load, load_document, _load_sync, _load_async, bind at 1.
  destruct (try_cache self (cache_key_of url) st) as [[[document|]|e] st1];
    reflexivity.
Qed.

(** ** The properties of the specification *)

(** C1, as amended.  For a reference that starts with none of ["did:"],
    ["http://"] and ["https://"], the loader never calls the DID resolver,
    the network fetcher or the cache's [set].  With no cache configured it
    calls nothing at all and raises the unrecognized-reference error.  With
    a cache configured the cache's [get] is called once, with the cache
    key, before the reference is classified; when that lookup misses
    (gives a falsy value) the unrecognized-reference error is raised. *)
Theorem C1_unrecognized_reference self url options w tr :
  String.prefix "did:" url = false ->
  String.prefix "http://" url = false ->
  String.prefix "https://" url = false ->
  match cache self with
  | None =>
      load is_valid parse self url options (w, tr) =
        (Raise (LinkedDataProofException unrecognized_url_message), (w, tr))
  | Some c =>
      snd (load is_valid parse self url options (w, tr)) =
        (snd (get c (cache_key_of url) w),
         tr ++ [EvCacheGet (cache_key_of url)]) /\
      (forall d, fst (get c (cache_key_of url) w) = Return d ->
                 truthy d = false ->
                 fst (load is_valid parse self url options (w, tr)) =
                   Raise (LinkedDataProofException unrecognized_url_message))
  end.
Proof.
  intros Hdid Hhttp Hhttps.
  destruct (cache self) as [c|] eqn:Hc.
  - rewrite (load_cached _ _ _ _ _ _ Hc).
    destruct (get c (cache_key_of url) w) as [[d|e] w1]; simpl.
    + destruct (truthy d) eqn:Ht.
      * split; [reflexivity|]. intros d' [= <-]. congruence.
      * rewrite (resolve_and_store_cached _ _ _ _ _ _ Hc).
        rewrite dispatch_unrecognized by assumption.
        split; [reflexivity|]. intros; reflexivity.
    + split; [reflexivity|]. intros d [=].
  - rewrite load_no_cache by assumption.
    apply dispatch_unrecognized; assumption.
Qed.

(** C2.  With a cache configured the lookup under the cache key comes
    first.  A hit (a truthy value) is returned as it is and nothing else is
    called.  On a miss the reference is resolved; when that succeeds the
    document is stored under the same key with the loader's [cache_ttl]
    and then returned; when it fails the error is passed on and nothing is
    stored. *)
Theorem C2_cache_aside self c url options w tr d w1 :
  cache self = Some c ->
  get c (cache_key_of url) w = (Return d, w1) ->
  let looked_up := (w1, tr ++ [EvCacheGet (cache_key_of url)]) in
  (truthy d = true ->
     load is_valid parse self url options (w, tr) = (Return d, looked_up)) /\
  (truthy d = false ->
     forall doc w2 tr2,
       dispatch is_valid parse self url options looked_up =
         (Return doc, (w2, tr2)) ->
       let stored := EvCacheSet (cache_key_of url) doc (cache_ttl self) in
       match set c (cache_key_of url) doc (cache_ttl self) w2 with
       | (Return _, w3) =>
           load is_valid parse self url options (w, tr) =
             (Return doc, (w3, tr2 ++ [stored]))
       | (Raise e, w3) =>
           load is_valid parse self url options (w, tr) =
             (Raise e, (w3, tr2 ++ [stored]))
       end) /\
  (truthy d = false ->
     forall e w2 tr2,
       dispatch is_valid parse self url options looked_up =
         (Raise e, (w2, tr2)) ->
       load is_valid parse self url options (w, tr) = (Raise e, (w2, tr2)) /\
       List.filter is_cache_set tr2 = List.filter is_cache_set tr).
Proof.
  intros Hc Hget looked_up.
  rewrite (load_cached _ _ _ _ _ _ Hc), Hget.
  split; [|split].
  - intros ->. reflexivity.
  - intros -> doc w2 tr2 Hd stored.
    rewrite (resolve_and_store_cached _ _ _ _ _ _ Hc).
    fold looked_up. rewrite Hd. subst stored.
    destruct (set c (cache_key_of url) doc (cache_ttl self) w2) as [[x|e] w3];
      reflexivity.
  - intros -> e w2 tr2 Hd. split.
    + rewrite (resolve_and_store_cached _ _ _ _ _ _ Hc).
      fold looked_up. rewrite Hd. reflexivity.
    + destruct (dispatch_trace _ _ _ _ _ _ _ _ Hd) as (evs & -> & Hres & _).
      rewrite !List.filter_app. simpl. rewrite app_nil_r.
      rewrite (resolver_events_no_cache_set _ Hres).
      apply app_nil_r.
Qed.

(** C3.  For a reference that starts with ["did:"] and that [DIDUrl]
    accepts, that is, a DID carrying a path, query or fragment, the DID
    resolver is called once, with the DID that [DIDUrl.parse] extracts and
    nothing else.  The record built from its answer has the four fields
    [contentType] (["application/ld+json"]), [contextUrl] ([None]),
    [documentUrl] (that DID) and [document] (the resolver's answer).  This
    is what resolution does wherever it runs and, with no cache, what
    [load] returns. *)
Theorem C3_did_url_resolved_by_plain_did self url options w tr u :
  String.prefix "did:" url = true ->
  is_valid url = true ->
  parse url = Return u ->
  let resolved := resolve (resolver self) (profile self) (did u) w in
  let outcome :=
    (match fst resolved with
     | Return did_document =>
         Return (PyDict [("contentType", PyStr "application/ld+json");
                         ("contextUrl", PyNone);
                         ("documentUrl", PyStr (did u));
                         ("document", did_document)])
     | Raise e => Raise e
     end,
     (snd resolved, tr ++ [EvResolve (did u)])) in
  dispatch is_valid parse self url options (w, tr) = outcome /\
  (cache self = None -> load is_valid parse self url options (w, tr) = outcome).
Proof.
  intros Hdid Hvalid Hparse resolved outcome.
  assert (Hd : dispatch is_valid parse self url options (w, tr) = outcome).
  { rewrite dispatch_did by assumption. rewrite load_did_document_eq.
    unfold plain_did. rewrite Hvalid, Hparse. reflexivity. }
  split; [exact Hd|].
  intros Hc. rewrite load_no_cache by assumption. exact Hd.
Qed.

(** C4.  For a reference that starts with ["http://"] or ["https://"] the
    network fetcher is called once, with the reference and the options as
    they were given, and what it returns is what [load] returns: its record
    or its exception with no cache, and on a cache miss its record once the
    cache has stored it. *)
Theorem C4_http_reference_passed_through self url options w tr :
  String.prefix "http://" url || String.prefix "https://" url = true ->
  (cache self = None ->
     load is_valid parse self url options (w, tr) =
       (fst (requests_loader self url options w),
        (snd (requests_loader self url options w),
         tr ++ [EvFetch url options]))) /\
  (forall c d w1,
     cache self = Some c ->
     get c (cache_key_of url) w = (Return d, w1) ->
     truthy d = false ->
     let key := cache_key_of url in
     match requests_loader self url options w1 with
     | (Return doc, w2) =>
         let calls := [EvCacheGet key; EvFetch url options;
                       EvCacheSet key doc (cache_ttl self)] in
         match set c key doc (cache_ttl self) w2 with
         | (Return _, w3) =>
             load is_valid parse self url options (w, tr) =
               (Return doc, (w3, tr ++ calls))
         | (Raise e, w3) =>
             load is_valid parse self url options (w, tr) =
               (Raise e, (w3, tr ++ calls))
         end
     | (Raise e, w2) =>
         load is_valid parse self url options (w, tr) =
           (Raise e, (w2, tr ++ [EvCacheGet key; EvFetch url options]))
     end).
Proof.
  intros Hhttp. split.
  - intros Hc. rewrite load_no_cache by assumption.
    rewrite dispatch_http by assumption. apply load_http_document_eq.
  - intros c d w1 Hc Hget Hfalsy key.
    rewrite (load_cached _ _ _ _ _ _ Hc), Hget, Hfalsy.
    rewrite (resolve_and_store_cached _ _ _ _ _ _ Hc).
    rewrite dispatch_http by assumption. rewrite load_http_document_eq.
    fold key.
    destruct (requests_loader self url options w1) as [[doc|e] w2]; simpl.
    + destruct (set c key doc (cache_ttl self) w2) as [[x|e] w3]; simpl;
        rewrite <- !app_assoc; reflexivity.
    + rewrite <- app_assoc. reflexivity.
Qed.

(** C6, as amended.  When [load] fails because the reference starts with
    none of the supported schemes, that is, when the lookup did not return
    a document (no cache, or a miss), the error raised is a
    [LinkedDataProofException] whose only argument is the fixed message
    naming the three schemes; the reference is not part of it. *)
Theorem C6_unrecognized_error_is_fixed self url options
    (st st1 : W * list event) :
  String.prefix "did:" url = false ->
  String.prefix "http://" url = false ->
  String.prefix "https://" url = false ->
  try_cache self (cache_key_of url) st = (Return None, st1) ->
  load is_valid parse self url options st =
    (Raise (mk_exn "LinkedDataProofException"
              [PyStr "Unrecognized url format. Must start with 'did:', 'http://' or 'https://'"]),
     st1).
Proof.
  intros Hdid Hhttp Hhttps Hmiss.
  rewrite load_after_lookup, Hmiss.
  apply resolve_and_store_raise.
  apply dispatch_unrecognized; assumption.
Qed.

(** C7.  A bare DID, one that [DIDUrl] refuses for having no path, query
    or fragment, or whose DID part is the whole reference, reaches the DID
    resolver unchanged. *)
Theorem C7_bare_did_unchanged self url options w tr :
  String.prefix "did:" url = true ->
  (is_valid url = false \/
   exists u, parse url = Return u /\ did u = url) ->
  plain_did is_valid parse url = Return url /\
  let resolved := resolve (resolver self) (profile self) url w in
  dispatch is_valid parse self url options (w, tr) =
    (match fst resolved with
     | Return did_document =>
         Return (PyDict [("contentType", PyStr "application/ld+json");
                         ("contextUrl", PyNone);
                         ("documentUrl", PyStr url);
                         ("document", did_document)])
     | Raise e => Raise e
     end,
     (snd resolved, tr ++ [EvResolve url])).
Proof.
  intros Hdid Hbare.
  assert (Hplain : plain_did is_valid parse url = Return url).
  { unfold plain_did. destruct Hbare as [-> | (u & -> & ->)]; [reflexivity|].
    destruct (is_valid url); reflexivity. }
  split; [exact Hplain|].
  intros resolved. rewrite dispatch_did by assumption.
  rewrite load_did_document_eq, Hplain. reflexivity.
Qed.

(** C10.  When the cache's [get] gives a falsy value, such as [None], an
    empty dict or an empty string, [load] goes on as after a miss and
    resolves the reference in full: for an HTTP(S) reference the fetcher
    is called with the reference and the options, for a DID reference the
    DID resolver is called with the plain DID, the document obtained is
    stored under the cache key and returned, and a reference of no
    supported scheme is refused.  What [load] does is the same as when the
    cache answers [None] for the key, so a falsy entry cannot be told from
    an absent one.  A call that returns after the lookup alone returned a
    truthy value of the cache. *)
Theorem C10_falsy_lookup_is_a_miss self c url options w tr d w1 :
  cache self = Some c ->
  get c (cache_key_of url) w = (Return d, w1) ->
  let key := cache_key_of url in
  let ttl := cache_ttl self in
  (truthy d = false ->
     (String.prefix "http://" url || String.prefix "https://" url = true ->
      match requests_loader self url options w1 with
      | (Return doc, w2) =>
          load is_valid parse self url options (w, tr) =
            (match fst (set c key doc ttl w2) with
             | Return _ => Return doc
             | Raise e => Raise e
             end,
             (snd (set c key doc ttl w2),
              tr ++ [EvCacheGet key; EvFetch url options;
                     EvCacheSet key doc ttl]))
      | (Raise e, w2) =>
          load is_valid parse self url options (w, tr) =
            (Raise e, (w2, tr ++ [EvCacheGet key; EvFetch url options]))
      end) /\
     (String.prefix "did:" url = true ->
      forall did1, plain_did is_valid parse url = Return did1 ->
      match resolve (resolver self) (profile self) did1 w1 with
      | (Return did_document, w2) =>
          let doc := PyDict [("contentType", PyStr "application/ld+json");
                             ("contextUrl", PyNone);
                             ("documentUrl", PyStr did1);
                             ("document", did_document)] in
          load is_valid parse self url options (w, tr) =
            (match fst (set c key doc ttl w2) with
             | Return _ => Return doc
             | Raise e => Raise e
             end,
             (snd (set c key doc ttl w2),
              tr ++ [EvCacheGet key; EvResolve did1; EvCacheSet key doc ttl]))
      | (Raise e, w2) =>
          load is_valid parse self url options (w, tr) =
            (Raise e, (w2, tr ++ [EvCacheGet key; EvResolve did1]))
      end) /\
     (String.prefix "did:" url = false ->
      String.prefix "http://" url || String.prefix "https://" url = false ->
      load is_valid parse self url options (w, tr) =
        (Raise (LinkedDataProofException unrecognized_url_message),
         (w1, tr ++ [EvCacheGet key]))) /\
     (forall c0,
        set c0 = set c ->
        get c0 key w = (Return PyNone, w1) ->
        load is_valid parse
          (mk_DocumentLoader (profile self) (resolver self) (Some c0)
             (requests_loader self) (cache_ttl self))
          url options (w, tr) =
        load is_valid parse self url options (w, tr))) /\
  (forall d' w',
     load is_valid parse self url options (w, tr) =
       (Return d', (w', tr ++ [EvCacheGet key])) ->
     truthy d = true /\ d' = d) /\
  truthy PyNone = false /\ truthy (PyDict []) = false /\
  truthy (PyStr "") = false.
Proof.
  intros Hc Hget key ttl. subst key ttl.
  split; [|split; [|repeat split]].
  - intros Hfalsy.
    assert (Hload : load is_valid parse self url options (w, tr) =
              resolve_and_store is_valid parse self (cache_key_of url) url options
                (w1, tr ++ [EvCacheGet (cache_key_of url)])).
    { rewrite (load_cached _ _ _ _ _ _ Hc).
      rewrite Hget, Hfalsy. reflexivity. }
    split; [|split; [|split]].
    + intros Hhttp. rewrite Hload.
      rewrite (resolve_and_store_cached _ _ _ _ _ _ Hc).
      rewrite dispatch_http by assumption. rewrite load_http_document_eq.
     
      destruct (requests_loader self url options w1) as [[doc|e] w2]; simpl;
        rewrite <- !app_assoc; reflexivity.
    + intros Hdid did1 Hplain. rewrite Hload.
      rewrite (resolve_and_store_cached _ _ _ _ _ _ Hc).
      rewrite dispatch_did by assumption.
      rewrite load_did_document_eq, Hplain.
      destruct (resolve (resolver self) (profile self) did1 w1)
        as [[did_document|e] w2]; simpl;
        rewrite <- !app_assoc; reflexivity.
    + intros Hdid Hhttp. rewrite Hload.
      apply orb_false_elim in Hhttp as [Hhttp Hhttps].
      apply resolve_and_store_raise.
      apply dispatch_unrecognized; assumption.
    + intros c0 Hset Hget0. rewrite Hload.
      set (self0 := mk_DocumentLoader (profile self) (resolver self) (Some c0)
                      (requests_loader self) (cache_ttl self)).
      rewrite (load_cached self0 c0 url options w tr eq_refl).
      rewrite Hget0. simpl truthy. cbv iota.
      rewrite (resolve_and_store_cached self0 c0 _ _ _ _ eq_refl).
      rewrite (resolve_and_store_cached _ _ _ _ _ _ Hc).
      change (dispatch is_valid parse self0) with (dispatch is_valid parse self).
      change (cache_ttl self0) with (cache_ttl self).
      rewrite Hset. reflexivity.
  - intros d' w' Hload.
    rewrite (load_cached _ _ _ _ _ _ Hc) in Hload.
    rewrite Hget in Hload.
    destruct (truthy d) eqn:Ht; [injection Hload as -> _; auto|].
    exfalso.
    rewrite (resolve_and_store_cached _ _ _ _ _ _ Hc) in Hload.
    destruct (dispatch is_valid parse self url options
                (w1, tr ++ [EvCacheGet (cache_key_of url)]))
      as [[doc|e] [w2 tr2]] eqn:Hd; [|discriminate].
    injection Hload as _ _ Htr.
    apply (f_equal (@length event)) in Htr.
    destruct (dispatch_trace _ _ _ _ _ _ _ _ Hd) as (evs & -> & _).
    rewrite !length_app in Htr. simpl in Htr. lia.
Qed.

(** C5.  Whatever the reference and the options are, every call that
    [load] makes to the cache, [get] or [set], uses the key
    ["json_ld_document_resolver::"] followed by the reference as it was
    given; with a cache configured the first call of all is the [get] under
    that key.  The options have no part in the key, so two calls that
    differ only in their options use the same key. *)
Theorem C5_cache_key_is_namespaced_reference self url options w tr :
  exists evs,
    snd (snd (load is_valid parse self url options (w, tr))) = tr ++ evs /\
    Forall (fun k => k = ("json_ld_document_resolver::" ++ url)%string)
           (cache_keys evs) /\
    (forall c, cache self = Some c ->
       exists rest,
         evs = EvCacheGet ("json_ld_document_resolver::" ++ url)%string :: rest).
Proof.
  change ("json_ld_document_resolver::" ++ url)%string with (cache_key_of url).
  destruct (cache self) as [c|] eqn:Hc.
  - rewrite (load_cached _ _ _ _ _ _ Hc).
    destruct (get c (cache_key_of url) w) as [[d|e] w1].
    + destruct (truthy d).
      * exists [EvCacheGet (cache_key_of url)]. simpl.
        repeat split; [repeat constructor|eauto].
      * rewrite (resolve_and_store_cached _ _ _ _ _ _ Hc).
        destruct (dispatch is_valid parse self url options
                    (w1, tr ++ [EvCacheGet (cache_key_of url)]))
          as [[doc|e] [w2 tr2]] eqn:Hd;
          destruct (dispatch_trace _ _ _ _ _ _ _ _ Hd) as (evs & -> & Hres & _).
        -- exists (EvCacheGet (cache_key_of url) ::
                   evs ++ [EvCacheSet (cache_key_of url) doc (cache_ttl self)]).
           simpl. rewrite <- !app_assoc. split; [reflexivity|].
           rewrite cache_keys_app, (resolver_events_no_cache_keys _ Hres).
           split; [repeat constructor|eauto].
        -- exists (EvCacheGet (cache_key_of url) :: evs).
           simpl. rewrite <- !app_assoc. split; [reflexivity|].
           rewrite (resolver_events_no_cache_keys _ Hres).
           split; [repeat constructor|eauto].
    + exists [EvCacheGet (cache_key_of url)]. simpl.
      repeat split; [repeat constructor|eauto].
  - rewrite load_no_cache by assumption.
    destruct (dispatch is_valid parse self url options (w, tr))
      as [r [w2 tr2]] eqn:Hd.
    destruct (dispatch_trace _ _ _ _ _ _ _ _ Hd) as (evs & -> & Hres & _).
    exists evs. simpl. split; [reflexivity|].
    rewrite (resolver_events_no_cache_keys _ Hres).
    split; [constructor|discriminate].
Qed.

(** C8, as amended.  With a cache that gives back what was stored under
    a key, and gives the same answer when asked again, a [load] that
    returns a truthy document is followed by a [load] of the same
    reference that returns the same document from the cache alone: the two
    calls together call a resolver at most once. *)
Theorem C8_second_load_served_from_cache
    self c url options options' w0 tr0 d w1 tr1 :
  cache self = Some c ->
  (forall w v x w',
     set c (cache_key_of url) v (cache_ttl self) w = (Return x, w') ->
     fst (get c (cache_key_of url) w') = Return v) ->
  (forall w v w',
     get c (cache_key_of url) w = (Return v, w') ->
     fst (get c (cache_key_of url) w') = Return v) ->
  load is_valid parse self url options (w0, tr0) = (Return d, (w1, tr1)) ->
  truthy d = true ->
  fst (load is_valid parse self url options' (w1, tr1)) = Return d /\
  snd (snd (load is_valid parse self url options' (w1, tr1))) =
    tr1 ++ [EvCacheGet (cache_key_of url)] /\
  (resolver_calls (snd (snd (load is_valid parse self url options' (w1, tr1))))
   <= resolver_calls tr0 + 1)%nat.
Proof.
  intros Hc Hset_get Hget_get Hfirst Htruthy.
  assert (Hstored : fst (get c (cache_key_of url) w1) = Return d /\
                    (resolver_calls tr1 <= resolver_calls tr0 + 1)%nat).
  { rewrite (load_cached _ _ _ _ _ _ Hc) in Hfirst.
    destruct (get c (cache_key_of url) w0) as [[d0|e] w'] eqn:Hget;
      [|discriminate].
    destruct (truthy d0) eqn:Ht0.
    - injection Hfirst as -> -> <-. split; [eapply Hget_get; eassumption|].
      rewrite resolver_calls_app. unfold resolver_calls. simpl. lia.
    - rewrite (resolve_and_store_cached _ _ _ _ _ _ Hc) in Hfirst.
      destruct (dispatch is_valid parse self url options
                  (w', tr0 ++ [EvCacheGet (cache_key_of url)]))
        as [[doc|e] [w2 tr2]] eqn:Hd; [|discriminate].
      destruct (set c (cache_key_of url) doc (cache_ttl self) w2)
        as [[x|e] w3] eqn:Hset; simpl in Hfirst; [|discriminate].
      injection Hfirst as -> -> <-.
      split; [eapply Hset_get; eassumption|].
      destruct (dispatch_trace _ _ _ _ _ _ _ _ Hd) as (evs & -> & _ & Hlen).
      rewrite !resolver_calls_app.
      pose proof (resolver_calls_le_length evs).
      unfold resolver_calls in *. simpl. lia. }
  destruct Hstored as [Hstored Hcalls].
  rewrite (load_cached _ _ _ _ _ _ Hc).
  destruct (get c (cache_key_of url) w1) as [r w2]. simpl in Hstored.
  subst r. rewrite Htruthy. simpl.
  repeat split. rewrite resolver_calls_app.
  unfold resolver_calls in *. simpl. lia.
Qed.

End LoaderFacts.


(** ** The in-memory cache keeps what it is given *)

Lemma in_memory_set_get key v ttl w x w' :
  0 < ttl ->
  InMemoryCache.cache_set key v ttl w = (Return x, w') ->
  fst (InMemoryCache.cache_get key w') = Return v.
Proof.
  intros Httl [= _ <-]. unfold InMemoryCache.cache_get. simpl.
  rewrite lookup_insert_eq.
  destruct (Z.ltb_spec (InMemoryCache.clock w) (InMemoryCache.clock w + ttl));
    [reflexivity|lia].
Qed.

Lemma in_memory_get_get key w v w' :
  InMemoryCache.cache_get key w = (Return v, w') ->
  fst (InMemoryCache.cache_get key w') = Return v.
Proof.
  unfold InMemoryCache.cache_get.
  destruct (InMemoryCache.store w !! key) as [[v0 expires]|] eqn:Hk.
  - destruct (InMemoryCache.clock w <? expires) eqn:Hlt;
      intros [= <- <-]; rewrite Hk, Hlt; reflexivity.
  - intros [= <- <-]. rewrite Hk. reflexivity.
Qed.

(** ** The loader at work *)

(** C1: with a cache configured, an unrecognized reference does reach the
    cache: its [get] is called before the reference is classified. *)
Lemma C1_cache_is_asked_for_unrecognized_reference :
  String.prefix "did:" "ftp://example.com/x" = false /\
  String.prefix "http://" "ftp://example.com/x" = false /\
  String.prefix "https://" "ftp://example.com/x" = false /\
  snd (snd (Demo.run Demo.cached_loader "ftp://example.com/x" (PyDict [])
              (InMemoryCache.empty_world, []))) =
    [EvCacheGet "json_ld_document_resolver::ftp://example.com/x"] /\
  ~ (forall ev,
       In ev (snd (snd (Demo.run Demo.cached_loader "ftp://example.com/x"
                          (PyDict []) (InMemoryCache.empty_world, [])))) ->
       is_cache_event ev = false).
Proof.
  repeat split; try reflexivity.
  intros H.
  specialize (H (EvCacheGet "json_ld_document_resolver::ftp://example.com/x")).
  discriminate H. left. reflexivity.
Qed.

Lemma C1_unrecognized_reference_witness :
  String.prefix "did:" "ftp://example.com/x" = false /\
  String.prefix "http://" "ftp://example.com/x" = false /\
  String.prefix "https://" "ftp://example.com/x" = false /\
  Demo.run Demo.uncached_loader "ftp://example.com/x" (PyDict [])
    (InMemoryCache.empty_world, []) =
    (Raise (LinkedDataProofException unrecognized_url_message),
     (InMemoryCache.empty_world, [])).
Proof.
  do 3 (split; [reflexivity|]).
  exact (C1_unrecognized_reference SimpleDIDUrl.is_valid SimpleDIDUrl.parse
           Demo.uncached_loader "ftp://example.com/x" (PyDict [])
           InMemoryCache.empty_world [] eq_refl eq_refl eq_refl).
Defined.

Lemma C2_cache_aside_witness :
  cache Demo.cached_loader = Some InMemoryCache.in_memory_cache /\
  get InMemoryCache.in_memory_cache
      (cache_key_of "https://example.com/ctx.jsonld") Demo.primed_world =
    (Return Demo.cached_document, Demo.primed_world) /\
  truthy Demo.cached_document = true /\
  Demo.run Demo.cached_loader "https://example.com/ctx.jsonld" (PyDict [])
    (Demo.primed_world, []) =
    (Return Demo.cached_document,
     (Demo.primed_world,
      [EvCacheGet "json_ld_document_resolver::https://example.com/ctx.jsonld"])).
Proof.
  do 3 (split; [reflexivity|]).
  exact (proj1 (C2_cache_aside SimpleDIDUrl.is_valid SimpleDIDUrl.parse
                  Demo.cached_loader InMemoryCache.in_memory_cache
                  "https://example.com/ctx.jsonld" (PyDict [])
                  Demo.primed_world [] Demo.cached_document Demo.primed_world
                  eq_refl eq_refl) eq_refl).
Defined.

Lemma C3_did_url_witness :
  String.prefix "did:" "did:example:123/path?query" = true /\
  SimpleDIDUrl.is_valid "did:example:123/path?query" = true /\
  SimpleDIDUrl.parse "did:example:123/path?query" =
    Return (mk_DIDUrl "did:example:123" "/path?query") /\
  Demo.run Demo.uncached_loader "did:example:123/path?query" (PyDict [])
    (InMemoryCache.empty_world, []) =
    (Return (PyDict [("contentType", PyStr "application/ld+json");
                     ("contextUrl", PyNone);
                     ("documentUrl", PyStr "did:example:123");
                     ("document", PyDict [("id", PyStr "did:example:123")])]),
     (InMemoryCache.empty_world, [EvResolve "did:example:123"])).
Proof.
  do 3 (split; [reflexivity|]).
  exact (proj2 (C3_did_url_resolved_by_plain_did
                  SimpleDIDUrl.is_valid SimpleDIDUrl.parse
                  Demo.uncached_loader "did:example:123/path?query" (PyDict [])
                  InMemoryCache.empty_world []
                  (mk_DIDUrl "did:example:123" "/path?query")
                  eq_refl eq_refl eq_refl) eq_refl).
Defined.

Lemma C4_http_reference_witness :
  String.prefix "http://" "https://example.com/ctx.jsonld"
  || String.prefix "https://" "https://example.com/ctx.jsonld" = true /\
  Demo.run Demo.uncached_loader "https://example.com/ctx.jsonld" (PyDict [])
    (InMemoryCache.empty_world, []) =
    (fst (Demo.fetcher "https://example.com/ctx.jsonld" (PyDict [])
            InMemoryCache.empty_world),
     (InMemoryCache.empty_world,
      [EvFetch "https://example.com/ctx.jsonld" (PyDict [])])).
Proof.
  split; [reflexivity|].
  exact (proj1 (C4_http_reference_passed_through
                  SimpleDIDUrl.is_valid SimpleDIDUrl.parse
                  Demo.uncached_loader "https://example.com/ctx.jsonld"
                  (PyDict []) InMemoryCache.empty_world [] eq_refl) eq_refl).
Defined.

Lemma C5_cache_key_witness :
  exists evs,
    snd (snd (Demo.run Demo.cached_loader "did:example:123/path?query"
                (PyDict [("base", PyStr "x")])
                (InMemoryCache.empty_world, []))) = [] ++ evs /\
    Forall (fun k => k = "json_ld_document_resolver::did:example:123/path?query")
           (cache_keys evs) /\
    (forall c, cache Demo.cached_loader = Some c ->
       exists rest,
         evs = EvCacheGet "json_ld_document_resolver::did:example:123/path?query"
               :: rest).
Proof.
  exact (C5_cache_key_is_namespaced_reference
           SimpleDIDUrl.is_valid SimpleDIDUrl.parse Demo.cached_loader
           "did:example:123/path?query" (PyDict [("base", PyStr "x")])
           InMemoryCache.empty_world []).
Defined.

(** C6: the error raised for ["ftp://example.com/x"] holds the fixed
    message only; the reference occurs nowhere in its arguments. *)
Lemma C6_error_does_not_carry_reference :
  ~ (forall e,
       fst (Demo.run Demo.uncached_loader "ftp://example.com/x" (PyDict [])
              (InMemoryCache.empty_world, [])) = Raise e ->
       exn_mentions e "ftp://example.com/x" = true).
Proof.
  intros H.
  specialize (H (LinkedDataProofException unrecognized_url_message) eq_refl).
  discriminate H.
Qed.

Lemma C6_unrecognized_error_witness :
  String.prefix "did:" "ftp://example.com/x" = false /\
  String.prefix "http://" "ftp://example.com/x" = false /\
  String.prefix "https://" "ftp://example.com/x" = false /\
  try_cache Demo.cached_loader (cache_key_of "ftp://example.com/x")
    (InMemoryCache.empty_world, []) =
    (Return None,
     (InMemoryCache.empty_world,
      [EvCacheGet "json_ld_document_resolver::ftp://example.com/x"])) /\
  Demo.run Demo.cached_loader "ftp://example.com/x" (PyDict [])
    (InMemoryCache.empty_world, []) =
    (Raise (mk_exn "LinkedDataProofException"
              [PyStr "Unrecognized url format. Must start with 'did:', 'http://' or 'https://'"]),
     (InMemoryCache.empty_world,
      [EvCacheGet "json_ld_document_resolver::ftp://example.com/x"])).
Proof.
  do 4 (split; [reflexivity|]).
  exact (C6_unrecognized_error_is_fixed
           SimpleDIDUrl.is_valid SimpleDIDUrl.parse Demo.cached_loader
           "ftp://example.com/x" (PyDict []) (InMemoryCache.empty_world, [])
           (InMemoryCache.empty_world,
            [EvCacheGet "json_ld_document_resolver::ftp://example.com/x"])
           eq_refl eq_refl eq_refl eq_refl).
Defined.

Lemma C7_bare_did_witness :
  String.prefix "did:" "did:example:123" = true /\
  SimpleDIDUrl.is_valid "did:example:123" = false /\
  plain_did SimpleDIDUrl.is_valid SimpleDIDUrl.parse "did:example:123" =
    Return "did:example:123" /\
  dispatch SimpleDIDUrl.is_valid SimpleDIDUrl.parse Demo.uncached_loader
    "did:example:123" (PyDict []) (InMemoryCache.empty_world, []) =
    (Return (PyDict [("contentType", PyStr "application/ld+json");
                     ("contextUrl", PyNone);
                     ("documentUrl", PyStr "did:example:123");
                     ("document", PyDict [("id", PyStr "did:example:123")])]),
     (InMemoryCache.empty_world, [EvResolve "did:example:123"])).
Proof.
  do 2 (split; [reflexivity|]).
  exact (C7_bare_did_unchanged
           SimpleDIDUrl.is_valid SimpleDIDUrl.parse Demo.uncached_loader
           "did:example:123" (PyDict []) InMemoryCache.empty_world []
           eq_refl (or_introl eq_refl)).
Defined.

(** C8: the cache gives back what is stored in it, yet when the resolver
    fails nothing is stored, and the second of two successive calls with
    the same reference calls the resolver again. *)
Lemma C8_failed_resolution_is_repeated :
  (forall w v x w',
     set InMemoryCache.in_memory_cache (cache_key_of "did:example:123")
         v (cache_ttl Demo.cached_failing_loader) w = (Return x, w') ->
     fst (get InMemoryCache.in_memory_cache (cache_key_of "did:example:123") w')
       = Return v) /\
  snd (snd (Demo.run Demo.cached_failing_loader "did:example:123" (PyDict [])
              (snd (Demo.run Demo.cached_failing_loader "did:example:123"
                      (PyDict []) (InMemoryCache.empty_world, []))))) =
    [EvCacheGet "json_ld_document_resolver::did:example:123";
     EvResolve "did:example:123";
     EvCacheGet "json_ld_document_resolver::did:example:123";
     EvResolve "did:example:123"] /\
  ~ (resolver_calls
       (snd (snd (Demo.run Demo.cached_failing_loader "did:example:123"
                    (PyDict [])
                    (snd (Demo.run Demo.cached_failing_loader "did:example:123"
                            (PyDict []) (InMemoryCache.empty_world, []))))))
     <= 1)%nat.
Proof.
  split; [|split].
  - intros w v x w'. apply in_memory_set_get. reflexivity.
  - reflexivity.
  - vm_compute. lia.
Qed.

(** An empty record from the fetcher is stored, read back as a miss, and
    fetched again. *)
Example empty_record_is_fetched_again :
  resolver_calls
    (snd (snd (Demo.run Demo.cached_empty_loader "https://example.com/ctx.jsonld"
                 (PyDict [])
                 (snd (Demo.run Demo.cached_empty_loader
                         "https://example.com/ctx.jsonld"
                         (PyDict []) (InMemoryCache.empty_world, []))))))
  = 2%nat.
Proof. reflexivity. Qed.

Lemma C8_second_load_witness :
  cache Demo.cached_loader = Some InMemoryCache.in_memory_cache /\
  fst (Demo.run Demo.cached_loader "did:example:123/path?query" (PyDict [])
         (InMemoryCache.empty_world, [])) =
    Return (PyDict [("contentType", PyStr "application/ld+json");
                    ("contextUrl", PyNone);
                    ("documentUrl", PyStr "did:example:123");
                    ("document", PyDict [("id", PyStr "did:example:123")])]) /\
  fst (Demo.run Demo.cached_loader "did:example:123/path?query"
         (PyDict [("base", PyStr "x")])
         (snd (Demo.run Demo.cached_loader "did:example:123/path?query"
                 (PyDict []) (InMemoryCache.empty_world, [])))) =
    Return (PyDict [("contentType", PyStr "application/ld+json");
                    ("contextUrl", PyNone);
                    ("documentUrl", PyStr "did:example:123");
                    ("document", PyDict [("id", PyStr "did:example:123")])]) /\
  (resolver_calls
     (snd (snd (Demo.run Demo.cached_loader "did:example:123/path?query"
                  (PyDict [("base", PyStr "x")])
                  (snd (Demo.run Demo.cached_loader "did:example:123/path?query"
                          (PyDict []) (InMemoryCache.empty_world, []))))))
   <= resolver_calls [] + 1)%nat.
Proof.
  do 2 (split; [reflexivity|]).
  pose proof (C8_second_load_served_from_cache
                SimpleDIDUrl.is_valid SimpleDIDUrl.parse Demo.cached_loader
                InMemoryCache.in_memory_cache "did:example:123/path?query"
                (PyDict []) (PyDict [("base", PyStr "x")])
                InMemoryCache.empty_world []
                (PyDict [("contentType", PyStr "application/ld+json");
                         ("contextUrl", PyNone);
                         ("documentUrl", PyStr "did:example:123");
                         ("document", PyDict [("id", PyStr "did:example:123")])])
                (fst (snd (Demo.run Demo.cached_loader
                             "did:example:123/path?query" (PyDict [])
                             (InMemoryCache.empty_world, []))))
                (snd (snd (Demo.run Demo.cached_loader
                             "did:example:123/path?query" (PyDict [])
                             (InMemoryCache.empty_world, []))))
                eq_refl
                (fun w v x w' => in_memory_set_get _ v 300 w x w' eq_refl)
                (fun w v w' => in_memory_get_get _ w v w')
                eq_refl eq_refl) as (Hsame & _ & Hcalls).
  split; [exact Hsame | exact Hcalls].
Defined.

Lemma C10_falsy_lookup_witness :
  cache Demo.cached_loader = Some InMemoryCache.in_memory_cache /\
  get InMemoryCache.in_memory_cache
      (cache_key_of "https://example.com/ctx.jsonld") Demo.falsy_world =
    (Return (PyDict []), Demo.falsy_world) /\
  truthy (PyDict []) = false /\
  Demo.run Demo.cached_loader "https://example.com/ctx.jsonld" (PyDict [])
    (Demo.falsy_world, []) =
    (Return Demo.cached_document,
     (Demo.primed_world,
      [EvCacheGet "json_ld_document_resolver::https://example.com/ctx.jsonld";
       EvFetch "https://example.com/ctx.jsonld" (PyDict []);
       EvCacheSet "json_ld_document_resolver::https://example.com/ctx.jsonld"
         Demo.cached_document 300])).
Proof.
  do 3 (split; [reflexivity|]).
  etransitivity;
    [exact (proj1 (proj1 (C10_falsy_lookup_is_a_miss
                     SimpleDIDUrl.is_valid SimpleDIDUrl.parse
                     Demo.cached_loader InMemoryCache.in_memory_cache
                     "https://example.com/ctx.jsonld" (PyDict [])
                     Demo.falsy_world [] (PyDict []) Demo.falsy_world
                     eq_refl eq_refl) eq_refl) eq_refl)|].
  unfold Demo.primed_world, Demo.falsy_world. simpl.
  unfold InMemoryCache.cache_set. simpl.
  rewrite insert_insert_eq. reflexivity.
Defined.


(** ** More of what the loader does *)

Lemma append_inj_l (p a b : string) :
  (p ++ a)%string = (p ++ b)%string -> a = b.
Proof.
  induction p as [|c p IH]; simpl; [auto|].
  intros [= H]. auto.
Qed.

Lemma prefix_append (p a : string) : String.prefix p (p ++ a)%string = true.
Proof.
  induction p as [|c p IH]; [destruct a; reflexivity|].
  change (String c p ++ a)%string with (String c (p ++ a)%string).
  rewrite prefix_cons. destruct (ascii_dec c c); [exact IH|congruence].
Qed.

Section LoaderMore.

Context {W Profile : Type}.
Variable is_valid : string -> bool.
Variable parse : string -> result DIDUrl.

Implicit Types (self : DocumentLoader W Profile) (c : BaseCache W).
Implicit Types (url key : string) (options d doc : pyval).
Implicit Types (w : W) (tr : list event).

(** A dispatch that returns has called exactly one resolver. *)
Lemma dispatch_return_trace self url options w tr doc w' tr' :
  dispatch is_valid parse self url options (w, tr) = (Return doc, (w', tr')) ->
  exists ev, tr' = tr ++ [ev] /\ is_resolver_event ev = true.
Proof.
  unfold dispatch.
  destruct (String.prefix "did:" url).
  - rewrite load_did_document_eq.
    destruct (plain_did is_valid parse url) as [did1|e]; [|discriminate].
    intros [= _ _ <-]. exists (EvResolve did1). auto.
  - destruct (String.prefix "http://" url || String.prefix "https://" url).
    + rewrite load_http_document_eq.
      intros [= _ _ <-]. exists (EvFetch url options). auto.
    + unfold raise. discriminate.
Qed.

(** The calls of one [load], in the order they are made. *)
Lemma load_events self url options w tr :
  exists res sets,
    snd (snd (load is_valid parse self url options (w, tr))) =
      tr ++ match cache self with
            | Some _ => [EvCacheGet (cache_key_of url)]
            | None => []
            end ++ res ++ sets /\
    forallb is_resolver_event res = true /\ (length res <= 1)%nat /\
    (sets = [] \/
     exists d,
       sets = [EvCacheSet (cache_key_of url) d (cache_ttl self)] /\
       cache self <> None /\ length res = 1%nat /\
       forall d', fst (load is_valid parse self url options (w, tr)) =
                    Return d' -> d' = d).
Proof.
  destruct (cache self) as [c|] eqn:Hc.
  - rewrite (load_cached _ _ _ _ _ _ _ _ Hc).
    destruct (get c (cache_key_of url) w) as [[d|e] w1].
    + destruct (truthy d).
      * exists [], []. simpl. auto.
      * rewrite (resolve_and_store_cached _ _ _ _ _ _ _ _ Hc).
        destruct (dispatch is_valid parse self url options
                    (w1, tr ++ [EvCacheGet (cache_key_of url)]))
          as [[doc|e] [w2 tr2]] eqn:Hd.
        -- destruct (dispatch_return_trace _ _ _ _ _ _ _ _ Hd)
             as (ev & -> & Hev).
           exists [ev], [EvCacheSet (cache_key_of url) doc (cache_ttl self)].
           simpl. rewrite <- !app_assoc. simpl. rewrite Hev.
           do 3 (split; [reflexivity|]). right. exists doc.
           split; [reflexivity|]. split; [discriminate|].
           split; [reflexivity|].
           destruct (fst (set c (cache_key_of url) doc (cache_ttl self) w2));
             intros d' [=]; auto.
        -- destruct (dispatch_trace _ _ _ _ _ _ _ _ _ _ Hd)
             as (evs & -> & Hres & Hlen).
           exists evs, []. simpl. rewrite <- !app_assoc, app_nil_r. simpl. auto.
    + exists [], []. simpl. auto.
  - rewrite load_no_cache by assumption.
    destruct (dispatch is_valid parse self url options (w, tr))
      as [r [w2 tr2]] eqn:Hd.
    destruct (dispatch_trace _ _ _ _ _ _ _ _ _ _ Hd) as (evs & -> & Hres & Hlen).
    exists evs, []. simpl. rewrite app_nil_r. auto.
Qed.

(** Where an exception that leaves [dispatch] comes from. *)
Lemma dispatch_raise_origin self url options w tr e (st' : W * list event) :
  dispatch is_valid parse self url options (w, tr) = (Raise e, st') ->
  (String.prefix "did:" url = false /\
   String.prefix "http://" url || String.prefix "https://" url = false /\
   e = LinkedDataProofException unrecognized_url_message) \/
  (String.prefix "did:" url = true /\
   plain_did is_valid parse url = Raise e) \/
  (String.prefix "did:" url = true /\
   exists did1, plain_did is_valid parse url = Return did1 /\
              fst (resolve (resolver self) (profile self) did1 w) = Raise e) \/
  (String.prefix "http://" url || String.prefix "https://" url = true /\
   fst (requests_loader self url options w) = Raise e).
Proof.
  unfold dispatch.
  destruct (String.prefix "did:" url).
  - rewrite load_did_document_eq.
    destruct (plain_did is_valid parse url) as [did1|e1].
    + destruct (fst (resolve (resolver self) (profile self) did1 w)) eqn:Hr;
        [discriminate|].
      intros [= -> _]. right. right. left. eauto.
    + intros [= -> _]. right. left. auto.
  - destruct (String.prefix "http://" url || String.prefix "https://" url).
    + rewrite load_http_document_eq.
      destruct (fst (requests_loader self url options w)) eqn:Hr;
        [discriminate|].
      intros [= -> _]. right. right. right. auto.
    + unfold raise. intros [= <- _]. left. auto.
Qed.

(** A store among the calls of one [load] is the last of them. *)
Lemma in_load_events_set (gets res sets : list event) k v t :
  (gets = [] \/ exists key, gets = [EvCacheGet key]) ->
  forallb is_resolver_event res = true ->
  In (EvCacheSet k v t) (gets ++ res ++ sets) ->
  In (EvCacheSet k v t) sets.
Proof.
  intros Hgets Hres Hin.
  apply in_app_or in Hin as [Hin|Hin].
  - destruct Hgets as [->|[key ->]]; [destruct Hin|].
    destruct Hin as [Hin|[]]. discriminate.
  - apply in_app_or in Hin as [Hin|Hin]; [|exact Hin].
    exfalso. rewrite forallb_forall in Hres.
    specialize (Hres _ Hin). discriminate.
Qed.

(** X1.  A cache whose [get] raises makes [load] fail with that very
    exception: the reference is not resolved in spite of the cache, and
    neither resolver is called. *)
Theorem X1_cache_lookup_failure_is_fatal self c url options w tr e w1 :
  cache self = Some c ->
  get c (cache_key_of url) w = (Raise e, w1) ->
  load is_valid parse self url options (w, tr) =
    (Raise e, (w1, tr ++ [EvCacheGet (cache_key_of url)])) /\
  resolver_calls (snd (snd (load is_valid parse self url options (w, tr)))) =
    resolver_calls tr.
Proof.
  intros Hc Hget.
  rewrite (load_cached _ _ _ _ _ _ _ _ Hc), Hget. split; [reflexivity|].
  simpl. rewrite resolver_calls_app. unfold resolver_calls. simpl. lia.
Qed.

(** X2.  One [load] makes at most three calls, in this order: at most one
    cache [get], then at most one call of a resolver (the DID resolver or
    the fetcher, never both), then at most one cache [set], which only
    follows a resolver call.  With no cache there is no [get] and no
    [set]. *)
Theorem X2_load_call_sequence self url options w tr :
  exists gets res sets,
    snd (snd (load is_valid parse self url options (w, tr))) =
      tr ++ gets ++ res ++ sets /\
    (gets = [] \/ gets = [EvCacheGet (cache_key_of url)]) /\
    (res = [] \/ exists ev, res = [ev] /\ is_resolver_event ev = true) /\
    (sets = [] \/
     exists ev, sets = [ev] /\ is_cache_set ev = true /\ res <> []) /\
    (cache self = None -> gets = [] /\ sets = []).
Proof.
  destruct (load_events self url options w tr)
    as (res & sets & Htr & Hres & Hlen & Hsets).
  exists (match cache self with
          | Some _ => [EvCacheGet (cache_key_of url)]
          | None => []
          end), res, sets.
  split; [exact Htr|]. split; [destruct (cache self); auto|].
  split; [|split].
  - destruct res as [|ev [|ev' res]]; [auto| |simpl in Hlen; lia].
    right. exists ev. simpl in Hres. rewrite andb_true_r in Hres. auto.
  - destruct Hsets as [->|(d & -> & _ & Hone & _)]; [auto|].
    right. eexists. split; [reflexivity|]. split; [reflexivity|].
    intros ->. discriminate.
  - intros Hc. rewrite Hc. split; [reflexivity|].
    destruct Hsets as [->|(d & _ & Hnot & _)]; [reflexivity|].
    contradiction.
Qed.

(** X3.  Whatever [load] stores in the cache it stores under the cache key
    of the reference and with the loader's [cache_ttl], after exactly one
    resolver call of the same [load]; and when that [load] returns, the
    document it returns is the one it stored. *)
Theorem X3_stored_document_is_returned self url options w tr :
  exists evs,
    snd (snd (load is_valid parse self url options (w, tr))) = tr ++ evs /\
    forall k v t,
      In (EvCacheSet k v t) evs ->
      k = cache_key_of url /\ t = cache_ttl self /\
      resolver_calls evs = 1%nat /\
      forall d, fst (load is_valid parse self url options (w, tr)) = Return d ->
                d = v.
Proof.
  destruct (load_events self url options w tr)
    as (res & sets & Htr & Hres & Hlen & Hsets).
  eexists. split; [exact Htr|].
  intros k v t Hin.
  apply in_load_events_set in Hin;
    [|destruct (cache self); eauto|exact Hres].
  destruct Hsets as [->|(d & -> & _ & Hone & Hret)]; [destruct Hin|].
  destruct Hin as [[= <- <- <-]|[]].
  split; [reflexivity|]. split; [reflexivity|]. split; [|exact Hret].
  rewrite !resolver_calls_app.
  destruct res as [|ev [|ev' res]]; try discriminate Hone.
  simpl in Hres. rewrite andb_true_r in Hres.
  unfold resolver_calls. simpl. rewrite Hres.
  destruct (cache self); reflexivity.
Qed.

(** X4.  With no cache nothing is remembered: two successive calls with the
    same recognized reference call the resolver twice, the fetcher with the
    options of each call and the DID resolver with the plain DID, and the
    cache is not involved. *)
Theorem X4_no_cache_no_memoization self url options options' w tr :
  cache self = None ->
  (String.prefix "http://" url || String.prefix "https://" url = true ->
   snd (snd (load is_valid parse self url options'
               (snd (load is_valid parse self url options (w, tr))))) =
     tr ++ [EvFetch url options; EvFetch url options']) /\
  (String.prefix "did:" url = true ->
   forall did1, plain_did is_valid parse url = Return did1 ->
   snd (snd (load is_valid parse self url options'
               (snd (load is_valid parse self url options (w, tr))))) =
     tr ++ [EvResolve did1; EvResolve did1]).
Proof.
  intros Hc. split.
  - intros Hhttp.
    rewrite (load_no_cache _ _ _ _ options (w, tr)) by assumption.
    rewrite dispatch_http by assumption. rewrite load_http_document_eq.
    simpl. rewrite load_no_cache by assumption.
    rewrite dispatch_http by assumption. rewrite load_http_document_eq.
    simpl. rewrite <- app_assoc. reflexivity.
  - intros Hdid did1 Hplain.
    rewrite (load_no_cache _ _ _ _ options (w, tr)) by assumption.
    rewrite dispatch_did by assumption.
    rewrite load_did_document_eq, Hplain.
    simpl. rewrite load_no_cache by assumption.
    rewrite dispatch_did by assumption.
    rewrite load_did_document_eq, Hplain.
    simpl. rewrite <- app_assoc. reflexivity.
Qed.

(** X5.  Two references have the same cache key only when they are the
    same string, so a DID URL and its plain DID, or two URLs of one DID,
    never share an entry; and every key starts with the namespace
    ["json_ld_document_resolver::"]. *)
Theorem X5_cache_key_injective url1 url2 :
  (cache_key_of url1 = cache_key_of url2 <-> url1 = url2) /\
  String.prefix "json_ld_document_resolver::" (cache_key_of url1) = true.
Proof.
  split; [split|].
  - apply append_inj_l.
  - intros ->. reflexivity.
  - apply prefix_append.
Qed.

(** X6.  For a reference that starts with ["did:"] the options are not
    looked at: two calls that differ in their options only do the same
    thing, call for call, and end alike. *)
Theorem X6_did_reference_ignores_options self url options options'
    (st : W * list event) :
  String.prefix "did:" url = true ->
  load is_valid parse self url options st =
    load is_valid parse self url options' st.
Proof.
  intros Hdid. rewrite !load_after_lookup.
  destruct (try_cache self (cache_key_of url) st) as [[[document|]|e] st1];
    try reflexivity.
  unfold resolve_and_store, bind.
  rewrite !dispatch_did by assumption. reflexivity.
Qed.

(** X7.  [load] swallows no exception and makes up only one: an exception
    that leaves [load] is the unrecognized-reference error, for a reference
    of no supported scheme, or it was raised by the cache's [get], by
    [DIDUrl.parse], by the DID resolver, by the fetcher or by the cache's
    [set]. *)
Theorem X7_origin_of_errors self url options w tr e (st' : W * list event) :
  load is_valid parse self url options (w, tr) = (Raise e, st') ->
  (String.prefix "did:" url = false /\
   String.prefix "http://" url || String.prefix "https://" url = false /\
   e = LinkedDataProofException unrecognized_url_message) \/
  (exists c, cache self = Some c /\
             fst (get c (cache_key_of url) w) = Raise e) \/
  (String.prefix "did:" url = true /\
   plain_did is_valid parse url = Raise e) \/
  (String.prefix "did:" url = true /\
   exists did1 w0, plain_did is_valid parse url = Return did1 /\
                 fst (resolve (resolver self) (profile self) did1 w0) = Raise e) \/
  (String.prefix "http://" url || String.prefix "https://" url = true /\
   exists w0, fst (requests_loader self url options w0) = Raise e) \/
  (exists c doc w0,
     cache self = Some c /\
     fst (set c (cache_key_of url) doc (cache_ttl self) w0) = Raise e).
Proof.
  assert (Hdispatch : forall w0 tr0 st0,
            dispatch is_valid parse self url options (w0, tr0) = (Raise e, st0) ->
            (String.prefix "did:" url = false /\
             String.prefix "http://" url || String.prefix "https://" url = false /\
             e = LinkedDataProofException unrecognized_url_message) \/
            (String.prefix "did:" url = true /\
             plain_did is_valid parse url = Raise e) \/
            (String.prefix "did:" url = true /\
             exists did1 w0, plain_did is_valid parse url = Return did1 /\
               fst (resolve (resolver self) (profile self) did1 w0) = Raise e) \/
            (String.prefix "http://" url || String.prefix "https://" url = true /\
             exists w0, fst (requests_loader self url options w0) = Raise e)).
  { intros w0 tr0 st0 Hd.
    destruct (dispatch_raise_origin _ _ _ _ _ _ _ Hd)
      as [H|[H|[(H & did1 & Hp & Hr)|[H Hr]]]]; eauto 10. }
  destruct (cache self) as [c|] eqn:Hc.
  - rewrite (load_cached _ _ _ _ _ _ _ _ Hc).
    destruct (get c (cache_key_of url) w) as [[d|e0] w1] eqn:Hget.
    + destruct (truthy d); [discriminate|].
      rewrite (resolve_and_store_cached _ _ _ _ _ _ _ _ Hc).
      destruct (dispatch is_valid parse self url options
                  (w1, tr ++ [EvCacheGet (cache_key_of url)]))
        as [[doc|e0] [w2 tr2]] eqn:Hd.
      * destruct (fst (set c (cache_key_of url) doc (cache_ttl self) w2))
          eqn:Hset; [discriminate|].
        intros [= -> _]. do 5 right. eauto.
      * intros [= -> _].
        destruct (Hdispatch _ _ _ Hd) as [H|[H|[H|H]]]; auto 10.
    + intros [= -> _]. right. left. exists c.
      split; [reflexivity|]. rewrite Hget. reflexivity.
  - rewrite load_no_cache by assumption. intros Hd.
    destruct (Hdispatch _ _ _ Hd) as [H|[H|[H|H]]]; auto 10.
Qed.

(** X8.  What [load] returns for a reference that starts with ["did:"] is
    truthy, whatever the DID resolver answered, [None] included: it is a
    truthy value of the cache or the record built around the answer. *)
Theorem X8_did_result_is_truthy self url options (st st' : W * list event) d :
  String.prefix "did:" url = true ->
  load is_valid parse self url options st = (Return d, st') ->
  truthy d = true.
Proof.
  intros Hdid. destruct st as [w tr].
  assert (Hmiss : forall st0 st1,
            resolve_and_store is_valid parse self (cache_key_of url)
              url options st0 = (Return d, st1) -> truthy d = true).
  { intros [w0 tr0] st1. unfold resolve_and_store, bind.
    rewrite dispatch_did by assumption. rewrite load_did_document_eq.
    destruct (plain_did is_valid parse url) as [did1|e1]; [|discriminate].
    destruct (fst (resolve (resolver self) (profile self) did1 w0));
      [|discriminate].
    destruct (fill_cache _ _ _ _) as [[[]|e1] st2]; [|discriminate].
    intros [= <- _]. reflexivity. }
  destruct (cache self) as [c|] eqn:Hc.
  - rewrite (load_cached _ _ _ _ _ _ _ _ Hc).
    destruct (get c (cache_key_of url) w) as [[d0|e0] w1]; [|discriminate].
    destruct (truthy d0) eqn:Ht; [intros [= <- _]; exact Ht|].
    apply Hmiss.
  - rewrite load_after_lookup. unfold try_cache. rewrite Hc. apply Hmiss.
Qed.

(** X9.  Constructing a loader calls neither a resolver nor a cache, and
    when it fails it fails with what one of its four calls raised.  The
    loader it gives holds the resolver and the cache the profile gave; it
    stores with a TTL of 300 seconds when [cache_ttl] was left out and with
    [cache_ttl] otherwise, and when the profile gave no cache it never
    calls one. *)
Theorem X9_constructed_loader inject_resolver inject_cache
    requests_document_loader ThreadPoolExecutor
    (profile0 : Profile) (cache_ttl0 : option Z) w0 tr0 url options w tr :
  match DocumentLoader_init inject_resolver inject_cache
          requests_document_loader ThreadPoolExecutor
          profile0 cache_ttl0 (w0, tr0) with
  | (Return self, (w1, tr1)) =>
      tr1 = tr0 /\
      (exists wa wb,
         inject_resolver profile0 w0 = (Return (resolver self), wa) /\
         inject_cache profile0 wa = (Return (cache self), wb)) /\
      exists evs,
        snd (snd (load is_valid parse self url options (w, tr))) = tr ++ evs /\
        (forall k v t,
           In (EvCacheSet k v t) evs ->
           t = match cache_ttl0 with Some ttl => ttl | None => 300 end) /\
        (cache self = None -> List.filter is_cache_event evs = [])
  | (Raise e, (w1, tr1)) =>
      tr1 = tr0 /\
      (fst (inject_resolver profile0 w0) = Raise e \/
       exists wa,
         fst (inject_cache profile0 wa) = Raise e \/
         fst (requests_document_loader wa) = Raise e \/
         fst (ThreadPoolExecutor 1 wa) = Raise e)
  end.
Proof.
  unfold DocumentLoader_init, bind, unlogged, ret. simpl.
  destruct (inject_resolver profile0 w0) as [[resolver0|e] wa] eqn:Hir;
    simpl; [|auto].
  destruct (inject_cache profile0 wa) as [[cache0|e] wb] eqn:Hic;
    simpl; [|split; [reflexivity|]; right; exists wa; rewrite Hic; auto].
  destruct (requests_document_loader wb) as [[fetcher0|e] wc] eqn:Hrl;
    simpl; [|split; [reflexivity|]; right; exists wb; rewrite Hrl; auto].
  destruct (ThreadPoolExecutor 1 wc) as [[[]|e] wd] eqn:Hex;
    simpl; [|split; [reflexivity|]; right; exists wc; rewrite Hex; auto].
  split; [reflexivity|]. split; [eauto|].
  match goal with |- context [load _ _ ?l] => set (self := l) end.
  destruct (load_events self url options w tr)
    as (res & sets & Htr & Hres & Hlen & Hsets).
  eexists. split; [exact Htr|]. split.
  - intros k v t Hin.
    apply in_load_events_set in Hin;
      [|destruct (cache self); eauto|exact Hres].
    destruct Hsets as [->|(d & -> & _)]; [destruct Hin|].
    destruct Hin as [[= _ _ <-]|[]]. reflexivity.
  - intros Hnone. change (cache self) with cache0 in *.
    rewrite Hnone. simpl.
    destruct Hsets as [->|(d & _ & Hnot & _)];
      [|exfalso; apply Hnot; exact Hnone].
    rewrite app_nil_r.
    clear -Hres. induction res as [|ev res IH]; [reflexivity|].
    simpl in Hres. apply andb_prop in Hres as [Hev Hrest].
    destruct ev; simpl in *; try discriminate; auto.
Qed.

End LoaderMore.


Lemma X1_cache_lookup_failure_witness :
  cache DemoProfile.outage_loader = Some DemoProfile.broken_cache /\
  Demo.run DemoProfile.outage_loader "did:example:123" (PyDict [])
    (InMemoryCache.empty_world, []) =
    (Raise (mk_exn "CacheError"
              [PyStr "json_ld_document_resolver::did:example:123"]),
     (InMemoryCache.empty_world,
      [EvCacheGet "json_ld_document_resolver::did:example:123"])).
Proof.
  split; [reflexivity|].
  exact (proj1 (X1_cache_lookup_failure_is_fatal
                  SimpleDIDUrl.is_valid SimpleDIDUrl.parse
                  DemoProfile.outage_loader DemoProfile.broken_cache
                  "did:example:123" (PyDict []) InMemoryCache.empty_world []
                  (mk_exn "CacheError"
                     [PyStr "json_ld_document_resolver::did:example:123"])
                  InMemoryCache.empty_world eq_refl eq_refl)).
Defined.

Lemma X4_no_cache_no_memoization_witness :
  cache Demo.uncached_loader = None /\
  String.prefix "did:" "did:example:123/path?query" = true /\
  snd (snd (Demo.run Demo.uncached_loader "did:example:123/path?query"
              (PyDict [])
              (snd (Demo.run Demo.uncached_loader "did:example:123/path?query"
                      (PyDict []) (InMemoryCache.empty_world, []))))) =
    [EvResolve "did:example:123"; EvResolve "did:example:123"].
Proof.
  do 2 (split; [reflexivity|]).
  exact (proj2 (X4_no_cache_no_memoization
                  SimpleDIDUrl.is_valid SimpleDIDUrl.parse
                  Demo.uncached_loader "did:example:123/path?query"
                  (PyDict []) (PyDict []) InMemoryCache.empty_world []
                  eq_refl) eq_refl "did:example:123" eq_refl).
Defined.

Lemma X6_did_reference_ignores_options_witness :
  String.prefix "did:" "did:example:123/path?query" = true /\
  Demo.run Demo.cached_loader "did:example:123/path?query" (PyDict [])
    (InMemoryCache.empty_world, []) =
  Demo.run Demo.cached_loader "did:example:123/path?query"
    (PyDict [("base", PyStr "x")]) (InMemoryCache.empty_world, []).
Proof.
  split; [reflexivity|].
  exact (X6_did_reference_ignores_options
           SimpleDIDUrl.is_valid SimpleDIDUrl.parse Demo.cached_loader
           "did:example:123/path?query" (PyDict [])
           (PyDict [("base", PyStr "x")]) (InMemoryCache.empty_world, [])
           eq_refl).
Defined.

Lemma X7_origin_of_errors_witness :
  Demo.run Demo.cached_failing_loader "did:example:123" (PyDict [])
    (InMemoryCache.empty_world, []) =
    (Raise (mk_exn "DIDNotFound" [PyStr "did:example:123"]),
     (InMemoryCache.empty_world,
      [EvCacheGet "json_ld_document_resolver::did:example:123";
       EvResolve "did:example:123"])) /\
  exists w0,
    fst (resolve (resolver Demo.cached_failing_loader)
           (profile Demo.cached_failing_loader) "did:example:123" w0) =
      Raise (mk_exn "DIDNotFound" [PyStr "did:example:123"]).
Proof.
  split; [reflexivity|].
  destruct (X7_origin_of_errors
              SimpleDIDUrl.is_valid SimpleDIDUrl.parse
              Demo.cached_failing_loader "did:example:123" (PyDict [])
              InMemoryCache.empty_world []
              (mk_exn "DIDNotFound" [PyStr "did:example:123"])
              (InMemoryCache.empty_world,
               [EvCacheGet "json_ld_document_resolver::did:example:123";
                EvResolve "did:example:123"])
              eq_refl)
    as [H|[H|[H|[H|[H|H]]]]].
  - destruct H as (H & _). discriminate H.
  - destruct H as (c & Hc & Hget). injection Hc as <-. discriminate Hget.
  - destruct H as (_ & H). discriminate H.
  - destruct H as (_ & did1 & w0 & Hp & Hr). injection Hp as <-.
    exists w0. exact Hr.
  - destruct H as (H & _). discriminate H.
  - destruct H as (c & doc & w0 & Hc & Hset). injection Hc as <-.
    discriminate Hset.
Defined.

Lemma X8_did_result_is_truthy_witness :
  String.prefix "did:" "did:example:123" = true /\
  truthy (PyDict [("contentType", PyStr "application/ld+json");
                  ("contextUrl", PyNone);
                  ("documentUrl", PyStr "did:example:123");
                  ("document", PyDict [("id", PyStr "did:example:123")])])
    = true.
Proof.
  split; [reflexivity|].
  exact (X8_did_result_is_truthy
           SimpleDIDUrl.is_valid SimpleDIDUrl.parse Demo.uncached_loader
           "did:example:123" (PyDict []) (InMemoryCache.empty_world, [])
           (InMemoryCache.empty_world, [EvResolve "did:example:123"])
           _ eq_refl eq_refl).
Defined.

Lemma X9_constructed_loader_witness :
  exists evs,
    snd (snd (Demo.run
                (mk_DocumentLoader tt Demo.did_resolver
                   (Some InMemoryCache.in_memory_cache) Demo.fetcher 300)
                "https://example.com/ctx.jsonld" (PyDict [])
                (InMemoryCache.empty_world, []))) = [] ++ evs /\
    (forall k v t, In (EvCacheSet k v t) evs -> t = 300) /\
    (Some InMemoryCache.in_memory_cache = None ->
     List.filter is_cache_event evs = []).
Proof.
  exact (proj2 (proj2 (X9_constructed_loader
                  SimpleDIDUrl.is_valid SimpleDIDUrl.parse
                  DemoProfile.inject_resolver DemoProfile.inject_cache
                  DemoProfile.requests_document_loader DemoProfile.executor
                  tt None InMemoryCache.empty_world []
                  "https://example.com/ctx.jsonld"
                  (PyDict []) InMemoryCache.empty_world []))).
Defined.

(** Without a resolver in the profile no loader is built, and the cache is
    not even asked for. *)
Example construction_fails_without_resolver :
  fst (DocumentLoader_init DemoProfile.inject_no_resolver
         DemoProfile.inject_cache DemoProfile.requests_document_loader
         DemoProfile.executor tt None (InMemoryCache.empty_world, [])) =
    Raise (mk_exn "InjectionError" [PyStr "DIDResolver"]).
Proof. reflexivity. Qed.

Example loader_without_cache_is_built :
  fst (DocumentLoader_init DemoProfile.inject_resolver
         DemoProfile.inject_no_cache DemoProfile.requests_document_loader
         DemoProfile.executor tt (Some 60) (InMemoryCache.empty_world, [])) =
    Return (mk_DocumentLoader tt Demo.did_resolver None Demo.fetcher 60).
Proof. reflexivity. Qed.
